(** * diffxpy/stats.py: per-feature significance tests

    A shallow embedding of [diffxpy/stats.py].  The six test functions
    are translated line by line into an exception monad over IEEE
    binary64 numbers (the [float64] entries of the numpy arrays they
    receive).  The numpy operations the functions call (shape lookup,
    reshape, broadcasting arithmetic, mean and variance along axis 0
    with numpy's order of summation) are modelled in [Np]; the scipy distributions (chi-square, normal
    and Student-t cumulative distribution functions, the Mann-Whitney U
    test) are not part of the repository and enter as section variables
    of [Stats]. *)

From Stdlib Require Import ZArith String Ascii DecimalString Floats Bool Lia PeanoNat.
From Stdlib Require Import List.
Import ListNotations.

(** Decimal literals denote the nearest binary64 number, as they do in
    Python. *)
Set Warnings "-inexact-float".

(** ** Python exceptions *)

Module Py.

Inductive exn : Type :=
| ValueError (msg : string)
| IndexError (msg : string).

Inductive result (A : Type) : Type :=
| Ok (a : A)
| Raise (e : exn).

Arguments Ok {A} a.
Arguments Raise {A} e.

Definition bind {A B : Type} (m : result A) (k : A -> result B) : result B :=
  match m with
  | Ok a => k a
  | Raise e => Raise e
  end.

(** [str(n)] for a non-negative integer. *)
Definition str (n : nat) : string := NilEmpty.string_of_uint (Nat.to_uint n).

(** [needle in hay] on strings. *)
Fixpoint contains (needle hay : string) : bool :=
  String.prefix needle hay ||
  match hay with
  | EmptyString => false
  | String _ rest => contains needle rest
  end.

End Py.

Import Py.

Notation "x <- m ;; k" := (Py.bind m (fun x => k))
  (at level 61, m at next level, right associativity).

(** ** numpy arrays of [float64] *)

Module Np.

(** A one-dimensional array. *)
Definition vec : Type := list float.

(** The arrays the test functions take as observation data: one
    dimensional (the observations of a single feature) or two
    dimensional (observations x features).  A matrix is its list of
    rows, each of [ncols] entries; it carries the column count, so that
    a matrix without rows still has a shape. *)
Inductive ndarray : Type :=
| Arr1 (data : vec)
| Arr2 (ncols : nat) (rows : list vec).

(** [x.shape] *)
Definition shape (x : ndarray) : list nat :=
  match x with
  | Arr1 data => [length data]
  | Arr2 c rows => [length rows; c]
  end.

(** [np.ndim(x)] *)
Definition ndim (x : ndarray) : nat := length (shape x).

(** [x.shape[i]]: indexing the shape tuple past its end raises. *)
Definition shape_at (x : ndarray) (i : nat) : result nat :=
  match nth_error (shape x) i with
  | Some n => Ok n
  | None => Raise (IndexError "tuple index out of range")
  end.

(** Conversion of a Python [int] operand to [float64], rounding to
    nearest even (an integer beyond the binary64 range is sent to
    infinity here). *)
Definition float_of_int (z : Z) : float :=
  SF2Prim (binary_normalize prec emax z 0 false).

(** The error numpy raises when two one-dimensional operands cannot
    be broadcast against each other. *)
Definition broadcast_error (m n : nat) : exn :=
  ValueError ("operands could not be broadcast together with shapes ("
              ++ str m ++ ",) (" ++ str n ++ ",) ")%string.

Fixpoint zip_with (f : float -> float -> float) (a b : vec) : vec :=
  match a, b with
  | x :: a', y :: b' => f x y :: zip_with f a' b'
  | _, _ => []
  end.

(** A binary elementwise operation on one-dimensional arrays, with
    numpy's broadcasting: equal lengths pair up, a length-1 operand is
    stretched, anything else raises. *)
Definition broadcast (f : float -> float -> float) (a b : vec) : result vec :=
  if length a =? length b then Ok (zip_with f a b)
  else match a, b with
       | [x], _ => Ok (map (f x) b)
       | _, [y] => Ok (map (fun x => f x y) a)
       | _, _ => Raise (broadcast_error (length a) (length b))
       end.

(** The length two one-dimensional shapes broadcast to, when they do:
    a length-1 operand takes the other operand's length (which may be
    zero). *)
Definition broadcast_length (m n : nat) : nat := if m =? 1 then n else m.

Definition add : vec -> vec -> result vec := broadcast PrimFloat.add.
Definition subtract : vec -> vec -> result vec := broadcast PrimFloat.sub.
Definition divide : vec -> vec -> result vec := broadcast PrimFloat.div.

(** [a / n], [n * a] and [n - a] for a Python [int] [n]. *)
Definition divide_int (a : vec) (n : Z) : vec :=
  map (fun x => x / float_of_int n)%float a.
Definition int_multiply (n : Z) (a : vec) : vec :=
  map (fun x => float_of_int n * x)%float a.
Definition int_subtract (n : Z) (a : vec) : vec :=
  map (fun x => float_of_int n - x)%float a.

(** [a - c] for a scalar [float] [c]. *)
Definition subtract_scalar (a : vec) (c : float) : vec :=
  map (fun x => x - c)%float a.

(** [np.sqrt] and [np.square] *)
Definition sqrt (a : vec) : vec := map PrimFloat.sqrt a.
Definition square (a : vec) : vec := map (fun x => x * x)%float a.

(** [x.reshape([x.shape[0], 1])]: allowed when the element count is
    kept, that is for a vector, a single-column matrix or a matrix
    without rows. *)
Definition reshape_column (x : ndarray) : result ndarray :=
  match x with
  | Arr1 data => Ok (Arr2 1 (map (fun a => [a]) data))
  | Arr2 c rows =>
      if (length rows * c =? length rows) then Ok (Arr2 1 (map (firstn 1) rows))
      else Raise (ValueError ("cannot reshape array of size " ++ str (length rows * c)
                              ++ " into shape (" ++ str (length rows) ++ ",1)")%string)
  end.

(** Column [i] of a list of rows. *)
Definition column (rows : list vec) (i : nat) : vec :=
  map (fun r => nth i r 0%float) rows.

(** [x[:, i].flatten()]: a vector has no second axis to index, and a
    matrix only the columns below its column count. *)
Definition take_column (x : ndarray) (i : nat) : result vec :=
  match x with
  | Arr1 _ =>
      Raise (IndexError "too many indices for array: array is 1-dimensional, but 2 were indexed")
  | Arr2 c rows =>
      if i <? c then Ok (column rows i)
      else Raise (IndexError ("index " ++ str i ++ " is out of bounds for axis 1 with size "
                              ++ str c)%string)
  end.

(** *** Summation

    [np.add.reduce] on [float64] data, for arrays in C order (as
    [np.array] builds them).  A non-empty reduction starts from [-0.0],
    so that it starts, in effect, from the first entry; an empty one
    gives [0.0].

    Where the reduced axis is contiguous in memory (a vector, or the
    single column of an n x 1 matrix) numpy sums pairwise: fewer than 8
    entries are added one after the other; up to 128 entries are added
    into 8 running sums, entry [i] into sum [i mod 8], the 8 sums are
    combined as a balanced tree and the entries past the last full
    group of 8 are added to the result; longer data is split in two,
    the first part a multiple of 8 long, each part is summed pairwise
    and the two results are added.

    Along axis 0 of a matrix with several columns numpy adds the rows
    one after the other. *)

(** The running sums [r] after adding the full groups of 8 of [a], and
    the entries of [a] left over. *)
Fixpoint accumulate8 (r a : vec) : vec * vec :=
  match a with
  | x0 :: x1 :: x2 :: x3 :: x4 :: x5 :: x6 :: x7 :: rest =>
      accumulate8 (zip_with PrimFloat.add r [x0; x1; x2; x3; x4; x5; x6; x7]) rest
  | _ => (r, a)
  end.

(** The sum of a block of at most 128 entries. *)
Definition block_sum (a : vec) : float :=
  match a with
  | x0 :: x1 :: x2 :: x3 :: x4 :: x5 :: x6 :: x7 :: rest =>
      match accumulate8 [x0; x1; x2; x3; x4; x5; x6; x7] rest with
      | ([r0; r1; r2; r3; r4; r5; r6; r7], tail) =>
          fold_left PrimFloat.add tail
            (((r0 + r1) + (r2 + r3)) + ((r4 + r5) + (r6 + r7)))%float
      | _ => nan
      end
  | _ => fold_left PrimFloat.add a (-0)%float
  end.

(** Pairwise summation; [fuel] bounds the depth of the halving, and
    the length of the data is always enough. *)
Fixpoint pairwise (fuel : nat) (a : vec) : float :=
  let n := length a in
  if n <=? 128 then block_sum a
  else match fuel with
       | 0 => block_sum a
       | S fuel' =>
           let n2 := n / 2 - (n / 2) mod 8 in
           (pairwise fuel' (firstn n2 a) + pairwise fuel' (skipn n2 a))%float
       end.

Definition pairwise_sum (a : vec) : float := pairwise (length a) a.

(** [np.add.reduce] of the entries [a] met along the reduced axis. *)
Definition add_reduce (contiguous : bool) (a : vec) : float :=
  match a with
  | [] => 0%float
  | _ => if contiguous then pairwise_sum a
         else fold_left PrimFloat.add a (-0)%float
  end.

(** Whether axis 0 of a C-ordered matrix with [ncols] columns is
    contiguous in memory. *)
Definition contiguous_axis0 (ncols : nat) : bool := ncols =? 1.

(** Mean and variance of the entries along the reduced axis.  The
    variance is numpy's default ([ddof = 0]): the squared deviations
    from the mean are summed and divided by the number of entries. *)
Definition mean1 (contiguous : bool) (a : vec) : float :=
  (add_reduce contiguous a / float_of_int (Z.of_nat (length a)))%float.

Definition var1 (contiguous : bool) (a : vec) : float :=
  let m := mean1 contiguous a in
  let dev := map (fun x => x - m)%float a in
  (add_reduce contiguous (map (fun d => d * d)%float dev)
     / float_of_int (Z.max (Z.of_nat (length a) - 0) 0))%float.

(** [np.mean(x, axis=0).flatten()] and [np.var(x, axis=0).flatten()] *)
Definition mean_axis0 (x : ndarray) : vec :=
  match x with
  | Arr1 data => [mean1 true data]
  | Arr2 c rows => map (fun j => mean1 (contiguous_axis0 c) (column rows j)) (seq 0 c)
  end.

Definition var_axis0 (x : ndarray) : vec :=
  match x with
  | Arr1 data => [var1 true data]
  | Arr2 c rows => map (fun j => var1 (contiguous_axis0 c) (column rows j)) (seq 0 c)
  end.

End Np.

(** ** scipy.stats: the interface the test functions call *)

Module Scipy.

(** The [alternative] argument of [scipy.stats.mannwhitneyu]. *)
Inductive alternative : Type := two_sided | less | greater.

(** The result object of [scipy.stats.mannwhitneyu]. *)
Record MannwhitneyuResult : Type := {
  statistic : float;
  pvalue : float
}.

(** Table-driven stand-ins for the distribution functions, on which the
    test functions can be run.  They agree with the distributions at
    the tabulated points only. *)
Definition table_chi2_cdf (df : Z) (x : float) : float :=
  if (x <=? 0)%float then 0%float else (x / (x + Np.float_of_int df))%float.

Definition table_norm_cdf (loc scale x : float) : float :=
  let z := ((x - loc) / scale)%float in
  if (z =? 0)%float then 0.5%float
  else if (z =? 1)%float then 0x1.aec4bd120d37dp-1%float
  else if (z <? 0)%float then 0%float else 1%float.

Definition table_t_cdf (df x : float) : float :=
  if (x =? 0)%float then 0.5%float
  else if (x <? 0)%float then 0%float else 1%float.

Definition u_statistic (x y : Np.vec) : float :=
  fold_left PrimFloat.add
    (flat_map (fun a => map (fun b => if (b <? a)%float then 1%float
                                      else if (b =? a)%float then 0.5%float
                                      else 0%float) y) x)
    0%float.

Definition table_mannwhitneyu (x y : Np.vec) (alt : alternative) : MannwhitneyuResult :=
  let u := u_statistic x y in
  let half := (Np.float_of_int (Z.of_nat (length x * length y)) / 2)%float in
  {| statistic := u;
     pvalue := match alt with
               | two_sided => if (u =? half)%float then 1%float else 0.5%float
               | less => if (u <? half)%float then 0.25%float else 1%float
               | greater => if (half <? u)%float then 0.25%float else 1%float
               end |}.

End Scipy.

(** ** diffxpy/stats.py *)

Module Stats.
Import Np Scipy.

Section WithScipy.

Set Default Proof Using "Type".

(** [scipy.stats.chi2(df).cdf(x)], [scipy.stats.norm(loc, scale).cdf(x)]
    and [scipy.stats.t(df).cdf(x)] at one point, and
    [scipy.stats.mannwhitneyu(x, y, alternative)], taken to hand back a
    result object for every pair of samples.  On arrays the
    distribution functions act entry by entry, [t(df).cdf(x)]
    broadcasting [df] against [x].

    The parameters documented as [np.array (genes)] are one-dimensional
    arrays ([vec]); those documented as [np.array (observations x
    genes)] are [ndarray]s. *)
Variable chi2_cdf : Z -> float -> float.
Variable norm_cdf : float -> float -> float -> float.
Variable t_cdf : float -> float -> float.
Variable mannwhitneyu : vec -> vec -> alternative -> MannwhitneyuResult.

(** Drops from a goal the scipy functions it does not mention. *)
Ltac scipy_free :=
  try clear chi2_cdf; try clear norm_cdf; try clear t_cdf; try clear mannwhitneyu.

Definition likelihood_ratio_test (ll_full ll_reduced : vec) (df_full df_reduced : Z)
  : result vec :=
  if negb (length ll_full =? length ll_full) then
    Raise (ValueError
      "stats.likelihood_ratio_test(): ll_full and ll_red have to contain the same number of genes")
  else
    let delta_df := (df_full - df_reduced)%Z in
    diff <- subtract ll_full ll_reduced ;;
    let delta_dev := int_multiply 2 diff in
    let pvals := int_subtract 1 (map (chi2_cdf delta_df) delta_dev) in
    Ok pvals.

(** The reshape step shared by [wilcoxon] and [t_test_raw]:
    [if np.ndim(x0)==1: x0 = x0.reshape(..); x1 = x1.reshape(..)]. *)
Definition reshape_if_1d (x0 x1 : ndarray) : result (ndarray * ndarray) :=
  if ndim x0 =? 1 then
    r0 <- reshape_column x0 ;;
    r1 <- reshape_column x1 ;;
    Ok (r0, r1)
  else Ok (x0, x1).

(** The list comprehension of [wilcoxon], one test per column index. *)
Fixpoint for_each (f : nat -> result float) (range : list nat) : result vec :=
  match range with
  | [] => Ok []
  | i :: range' =>
      p <- f i ;;
      ps <- for_each f range' ;;
      Ok (p :: ps)
  end.

Definition wilcoxon (x0 x1 : ndarray) : result vec :=
  let axis := 1 in
  if negb (ndim x0 =? ndim x1) then
    Raise (ValueError
      "stats.wilcoxon(): number of dimensions is not allowed to differ between x0 and x1!")
  else
    xs <- reshape_if_1d x0 x1 ;;
    let x0 := fst xs in
    let x1 := snd xs in
    a0 <- shape_at x0 axis ;;
    a1 <- shape_at x1 axis ;;
    if negb (a0 =? a1) then
      Raise (ValueError
        "stats.wilcoxon(): the first axis (number of tests) is not allowed to differ between x0 and x1!")
    else
      n <- shape_at x0 1 ;;
      for_each (fun i =>
                  x <- take_column x0 i ;;
                  y <- take_column x1 i ;;
                  Ok (pvalue (mannwhitneyu x y two_sided)))
               (seq 0 n).

Definition t_test_moments (mu0 mu1 var0 var1 : vec) (n0 n1 : Z) : result vec :=
  if negb (length mu0 =? length mu1) then
    Raise (ValueError
      "stats.t_test_moments(): mu and mu1 have to contain the same number of entries")
  else if negb (length var0 =? length var1) then
    Raise (ValueError
      "stats.t_test_moments(): mu and mu1 have to contain the same number of entries")
  else
    s2 <- add (divide_int var0 n0) (divide_int var1 n1) ;;
    let s_delta := sqrt s2 in
    d <- subtract mu0 mu1 ;;
    t <- divide d s_delta ;;
    num <- add (divide_int var0 n0) (divide_int var1 n1) ;;
    den <- add (divide_int (square (divide_int var0 n0)) (n0 - 1))
               (divide_int (square (divide_int var1 n1)) (n1 - 1)) ;;
    df <- divide (square num) den ;;
    cdf <- broadcast t_cdf df t ;;
    let pval := int_subtract 1 cdf in
    Ok pval.

Definition t_test_raw (x0 x1 : ndarray) : result vec :=
  let axis := 1 in
  c0 <- shape_at x0 1 ;;
  c1 <- shape_at x1 1 ;;
  if negb (c0 =? c1) then
    Raise (ValueError
      "stats.t_test_raw(): x0 and x1 have to contain the same number of genes")
  else
    xs <- reshape_if_1d x0 x1 ;;
    let x0 := fst xs in
    let x1 := snd xs in
    a0 <- shape_at x0 axis ;;
    a1 <- shape_at x1 axis ;;
    if negb (a0 =? a1) then
      Raise (ValueError
        "stats.wilcoxon(): the first axis (number of tests) is not allowed to differ between x0 and x1!")
    else
      let mu0 := mean_axis0 x0 in
      let var0 := var_axis0 x0 in
      let mu1 := mean_axis0 x1 in
      let var1 := var_axis0 x1 in
      n0 <- shape_at x0 0 ;;
      n1 <- shape_at x1 0 ;;
      t_test_moments mu0 mu1 var0 var1 (Z.of_nat n0) (Z.of_nat n1).

(** The default of the [theta0] argument of [wald_test]. *)
Definition theta0_default : float := 0%float.

Definition wald_test (theta_mle theta_sd : vec) (theta0 : float) : result vec :=
  if negb (length theta_mle =? length theta_sd) then
    Raise (ValueError
      "stats.wald_test(): theta_mle and theta_sd have to contain the same number of entries")
  else
    wald_statistic <- divide (subtract_scalar theta_mle theta0) theta_sd ;;
    let pvals := int_subtract 1 (map (norm_cdf 0 1) wald_statistic) in
    Ok pvals.

Definition two_coef_z_test (theta_mle0 theta_mle1 theta_sd0 theta_sd1 : vec) : result vec :=
  if negb (length theta_mle0 =? length theta_mle1) then
    Raise (ValueError
      "stats.two_coef_z_test(): theta_mle0 and theta_mle1 have to contain the same number of entries")
  else if negb (length theta_sd0 =? length theta_sd1) then
    Raise (ValueError
      "stats.two_coef_z_test(): theta_sd0 and theta_sd1 have to contain the same number of entries")
  else if negb (length theta_mle0 =? length theta_sd0) then
    Raise (ValueError
      "stats.two_coef_z_test(): theta_mle0 and theta_sd0 have to contain the same number of entries")
  else
    d <- subtract theta_mle0 theta_mle1 ;;
    v <- add (square theta_sd0) (square theta_sd1) ;;
    z_statistic <- divide d (sqrt v) ;;
    let pvals := int_subtract 1 (map (norm_cdf 0 1) z_statistic) in
    Ok pvals.

(** *** The per-feature formulas, in the words of the specification *)

(** Deviance [D = 2 * (ll_full - ll_reduced)] against a chi-square
    distribution with [df_full - df_reduced] degrees of freedom. *)
Definition lrt_pvalue (df_full df_reduced : Z) (ll_full ll_reduced : float) : float :=
  let delta_df := (df_full - df_reduced)%Z in
  let D := (2 * (ll_full - ll_reduced))%float in
  (1 - chi2_cdf delta_df D)%float.

(** z-statistic [(theta_mle - theta0) / theta_sd] against the standard
    normal distribution, upper tail. *)
Definition wald_pvalue (theta0 theta_mle theta_sd : float) : float :=
  let z := ((theta_mle - theta0) / theta_sd)%float in
  (1 - norm_cdf 0 1 z)%float.

(** Welch's statistic with the Welch-Satterthwaite degrees of freedom. *)
Definition welch_t (n0 n1 : Z) (mu0 mu1 var0 var1 : float) : float :=
  let s := PrimFloat.sqrt (var0 / float_of_int n0 + var1 / float_of_int n1) in
  ((mu0 - mu1) / s)%float.

Definition welch_df (n0 n1 : Z) (var0 var1 : float) : float :=
  let a0 := (var0 / float_of_int n0)%float in
  let a1 := (var1 / float_of_int n1)%float in
  (((a0 + a1) * (a0 + a1))
   / ((a0 * a0) / float_of_int (n0 - 1) + (a1 * a1) / float_of_int (n1 - 1)))%float.

Definition welch_pvalue (n0 n1 : Z) (mu0 mu1 var0 var1 : float) : float :=
  (1 - t_cdf (welch_df n0 n1 var0 var1) (welch_t n0 n1 mu0 mu1 var0 var1))%float.

(** Population variance of a sample: the squared deviations from the
    mean, summed and divided by the sample size [n] (not [n - 1]); in
    [float64], with the sums taken as numpy takes them along the
    reduced axis. *)
Definition population_variance (contiguous : bool) (a : vec) : float :=
  (add_reduce contiguous
     (map (fun x => (x - mean1 contiguous a) * (x - mean1 contiguous a)) a)
   / float_of_int (Z.of_nat (length a)))%float.

(** The moments of an observation matrix: per-column mean, per-column
    population variance, row count. *)
Definition column_means (ncols : nat) (rows : list vec) : vec :=
  map (fun j => mean1 (contiguous_axis0 ncols) (column rows j)) (seq 0 ncols).

Definition column_variances (ncols : nat) (rows : list vec) : vec :=
  map (fun j => population_variance (contiguous_axis0 ncols) (column rows j))
      (seq 0 ncols).

(** The feature count of observation data once a vector is read as a
    single column. *)
Definition feature_count (x : ndarray) : nat :=
  match x with
  | Arr1 _ => 1
  | Arr2 c _ => c
  end.

(** Feature [i] of observation data: the vector itself when there is a
    single feature, column [i] of a matrix. *)
Definition feature (x : ndarray) (i : nat) : vec :=
  match x with
  | Arr1 data => data
  | Arr2 _ rows => column rows i
  end.

(** Two-sided Mann-Whitney U test of feature [i] of [x0] against
    feature [i] of [x1]. *)
Definition wilcoxon_pvalue (x0 x1 : ndarray) (i : nat) : float :=
  pvalue (mannwhitneyu (feature x0 i) (feature x1 i) two_sided).

(** Combined standard error [sqrt(theta_sd0^2 + theta_sd1^2)] and the
    upper normal tail of [(theta_mle0 - theta_mle1) / s]. *)
Definition two_coef_pvalue (theta_mle0 theta_mle1 theta_sd0 theta_sd1 : float) : float :=
  let s := PrimFloat.sqrt (theta_sd0 * theta_sd0 + theta_sd1 * theta_sd1) in
  let z := ((theta_mle0 - theta_mle1) / s)%float in
  (1 - norm_cdf 0 1 z)%float.

(** Entry [i] of a vector as a broadcast reads it: a length-1 vector
    gives its only entry at every index. *)
Definition item (a : vec) (i : nat) : float :=
  nth (if length a =? 1 then 0 else i) a 0%float.

(** ** Facts about the numpy model *)

Lemma nth_map_default {A B : Type} (f : A -> B) (l : list A) (i : nat) (d : B) (d' : A) :
  i < length l -> nth i (map f l) d = f (nth i l d').
Proof.
  intros Hi.
  rewrite (nth_indep _ d (f d')) by (rewrite length_map; exact Hi).
  apply map_nth.
Qed.

Lemma zip_with_length_min (f : float -> float -> float) (a b : vec) :
  length (zip_with f a b) = Nat.min (length a) (length b).
Proof.
  revert b; induction a as [|x a IH]; intros [|y b]; simpl; try reflexivity.
  now rewrite IH.
Qed.

Lemma zip_with_length (f : float -> float -> float) (a b : vec) :
  length a = length b -> length (zip_with f a b) = length a.
Proof. intros H; rewrite zip_with_length_min; lia. Qed.

Lemma nth_zip_with (f : float -> float -> float) (a b : vec) (i : nat) (d : float) :
  i < Nat.min (length a) (length b) ->
  nth i (zip_with f a b) d = f (nth i a d) (nth i b d).
Proof.
  revert b i; induction a as [|x a IH]; intros [|y b] i Hi; simpl in *; try lia.
  destruct i as [|i]; [reflexivity|].
  apply IH; lia.
Qed.

Create Rewrite HintDb np_length.
#[local] Hint Rewrite length_map zip_with_length_min length_seq : np_length.

(** Lengths of vectors built with [map] and [zip_with]. *)
Ltac len :=
  unfold int_subtract, int_multiply, divide_int, subtract_scalar, Np.sqrt, square in *;
  autorewrite with np_length in *; simpl length in *; lia.

(** Entry [i] of a vector built with [map] and [zip_with]. *)
Ltac entry :=
  unfold int_subtract, int_multiply, divide_int, subtract_scalar, Np.sqrt, square;
  repeat first [ rewrite nth_zip_with by len
               | rewrite (nth_map_default _ _ _ 0%float 0%float) by len ].

Lemma broadcast_same (f : float -> float -> float) (a b : vec) :
  length a = length b -> broadcast f a b = Ok (zip_with f a b).
Proof.
  intros H; unfold broadcast.
  now rewrite (proj2 (Nat.eqb_eq _ _) H).
Qed.

Lemma broadcast_mismatch (f : float -> float -> float) (a b : vec) :
  length a <> length b -> length a <> 1 -> length b <> 1 ->
  broadcast f a b = Raise (broadcast_error (length a) (length b)).
Proof.
  intros Hab Ha Hb; unfold broadcast.
  rewrite (proj2 (Nat.eqb_neq _ _) Hab).
  destruct a as [|x [|x' a]]; destruct b as [|y [|y' b]]; simpl in *;
    try reflexivity; congruence.
Qed.

Lemma broadcast_stretch_left (f : float -> float -> float) (x : float) (b : vec) :
  length b <> 1 -> broadcast f [x] b = Ok (map (f x) b).
Proof.
  intros Hb; unfold broadcast.
  destruct (length [x] =? length b) eqn:E; [|reflexivity].
  apply Nat.eqb_eq in E; simpl in E; congruence.
Qed.

Lemma broadcast_stretch_right (f : float -> float -> float) (a : vec) (y : float) :
  length a <> 1 -> broadcast f a [y] = Ok (map (fun x => f x y) a).
Proof.
  intros Ha; unfold broadcast.
  destruct (length a =? length [y]) eqn:E.
  - apply Nat.eqb_eq in E; simpl in E; congruence.
  - destruct a as [|x [|x' a]]; simpl in *; try reflexivity; congruence.
Qed.

Lemma broadcast_cases (f : float -> float -> float) (a b : vec) :
  (exists c, broadcast f a b = Ok c /\
             length c = broadcast_length (length a) (length b) /\
             (length a = length b \/ length a = 1 \/ length b = 1)) \/
  (broadcast f a b = Raise (broadcast_error (length a) (length b)) /\
   length a <> length b /\ length a <> 1 /\ length b <> 1).
Proof.
  scipy_free.
  destruct (Nat.eq_dec (length a) (length b)) as [E|N].
  - left; eexists; split; [apply broadcast_same, E|]; split; [|tauto].
    rewrite zip_with_length by exact E.
    unfold broadcast_length; destruct (length a =? 1) eqn:E1; [|reflexivity].
    apply Nat.eqb_eq in E1; congruence.
  - destruct (Nat.eq_dec (length a) 1) as [Ea|Na].
    + destruct a as [|x [|x' a]]; try discriminate.
      left; eexists; split; [apply broadcast_stretch_left; simpl in N; congruence|].
      split; [|tauto]. now rewrite length_map.
    + destruct (Nat.eq_dec (length b) 1) as [Eb|Nb].
      * destruct b as [|y [|y' b]]; try discriminate.
        left; eexists; split; [apply broadcast_stretch_right, Na|].
        split; [|tauto].
        rewrite length_map; unfold broadcast_length.
        now rewrite (proj2 (Nat.eqb_neq _ _) Na).
      * right; split; [apply broadcast_mismatch; assumption|tauto].
Qed.

Lemma broadcast_ok (f : float -> float -> float) (a b : vec) :
  length a = length b \/ length a = 1 \/ length b = 1 ->
  exists c, broadcast f a b = Ok c /\
            length c = broadcast_length (length a) (length b).
Proof.
  scipy_free.
  intros H.
  destruct (broadcast_cases f a b) as [(c & Hc & Hl & _) | (_ & Hab & Ha & Hb)].
  - now exists c.
  - exfalso; tauto.
Qed.

Lemma Raise_inj {A : Type} (e1 e2 : exn) : @Raise A e1 = Raise e2 -> e1 = e2.
Proof. intros E; now injection E. Qed.

(** numpy's broadcasting message is none of the messages of stats.py,
    which all start with [stats.]. *)
Lemma broadcast_error_not_stats (m n : nat) (rest : string) :
  broadcast_error m n <> ValueError (String "s" rest).
Proof. unfold broadcast_error; simpl; discriminate. Qed.

Lemma float_of_int_1 : float_of_int 1 = 1%float.
Proof. vm_compute. reflexivity. Qed.

Lemma float_of_int_2 : float_of_int 2 = 2%float.
Proof. vm_compute. reflexivity. Qed.

(** ** The likelihood-ratio test *)

(** After its (inert) guard, [likelihood_ratio_test] is the broadcast
    subtraction followed by the elementwise chi-square tail. *)
Lemma likelihood_ratio_test_unfold (ll_full ll_reduced : vec) (df_full df_reduced : Z) :
  likelihood_ratio_test ll_full ll_reduced df_full df_reduced =
  (diff <- subtract ll_full ll_reduced ;;
   Ok (int_subtract 1 (map (chi2_cdf (df_full - df_reduced)) (int_multiply 2 diff)))).
Proof.
  unfold likelihood_ratio_test.
  now rewrite Nat.eqb_refl.
Qed.

(** The only error [likelihood_ratio_test] can end in is numpy's, when
    the two lengths differ and neither is 1. *)
Lemma likelihood_ratio_test_outcomes (ll_full ll_reduced : vec) (df_full df_reduced : Z) :
  (exists pvals,
      likelihood_ratio_test ll_full ll_reduced df_full df_reduced = Ok pvals /\
      length pvals = broadcast_length (length ll_full) (length ll_reduced)) \/
  (likelihood_ratio_test ll_full ll_reduced df_full df_reduced =
   Raise (broadcast_error (length ll_full) (length ll_reduced)) /\
   length ll_full <> length ll_reduced /\
   length ll_full <> 1 /\ length ll_reduced <> 1).
Proof.
  rewrite likelihood_ratio_test_unfold; unfold subtract.
  destruct (broadcast_cases PrimFloat.sub ll_full ll_reduced)
    as [(c & -> & Hl & _) | (-> & H)]; cbn [bind].
  - left; eexists; split; [reflexivity|].
    unfold int_subtract, int_multiply; now rewrite !length_map.
  - right; split; [reflexivity|exact H].
Qed.

(** C1 (code defect): the guard of [likelihood_ratio_test] compares
    [ll_full.shape[0]] with itself, so the function never raises its own
    shape-mismatch error, whatever the two lengths; on the unequal-length
    input [ll_full = [-100]], [ll_reduced = [-105, -50]] it broadcasts
    and returns two p-values. *)
Theorem likelihood_ratio_test_guard_inert :
  (forall ll_full ll_reduced df_full df_reduced,
      likelihood_ratio_test ll_full ll_reduced df_full df_reduced <>
      Raise (ValueError
        "stats.likelihood_ratio_test(): ll_full and ll_red have to contain the same number of genes")) /\
  length [-100]%float <> length [-105; -50]%float /\
  likelihood_ratio_test [-100]%float [-105; -50]%float 3 1 =
  Ok [1 - chi2_cdf 2 10; 1 - chi2_cdf 2 (-100)]%float.
Proof.
  split; [|split].
  - intros ll_full ll_reduced df_full df_reduced.
    rewrite likelihood_ratio_test_unfold; unfold subtract.
    destruct (broadcast_cases PrimFloat.sub ll_full ll_reduced)
      as [(c & -> & _ & _) | (-> & _)]; cbn [bind].
    + discriminate.
    + intros E; apply Raise_inj in E; revert E. apply broadcast_error_not_stats.
  - simpl; discriminate.
  - reflexivity.
Qed.

(** C4: on log-likelihood vectors of equal length the likelihood-ratio
    test returns one p-value per feature, the chi-square upper tail
    [1 - CDF_chi2(df_full - df_reduced)(2 * (ll_full - ll_reduced))]; for
    [ll_full = [-100, -50]], [ll_reduced = [-105, -50]], [df_full = 3],
    [df_reduced = 1] the deviances are [10] and [0], and the second
    p-value is exactly [1] as soon as the chi-square distribution
    function vanishes at [0]. *)
Theorem likelihood_ratio_test_formula :
  (forall ll_full ll_reduced df_full df_reduced,
      length ll_full = length ll_reduced ->
      exists pvals,
        likelihood_ratio_test ll_full ll_reduced df_full df_reduced = Ok pvals /\
        length pvals = length ll_full /\
        forall i, i < length ll_full ->
          nth i pvals 0%float =
          lrt_pvalue df_full df_reduced (nth i ll_full 0%float) (nth i ll_reduced 0%float)) /\
  likelihood_ratio_test [-100; -50]%float [-105; -50]%float 3 1 =
  Ok [1 - chi2_cdf 2 10; 1 - chi2_cdf 2 0]%float /\
  (chi2_cdf 2 0 = 0%float ->
   likelihood_ratio_test [-100; -50]%float [-105; -50]%float 3 1 =
   Ok [1 - chi2_cdf 2 10; 1]%float).
Proof.
  split; [|split].
  - intros ll_full ll_reduced df_full df_reduced H.
    rewrite likelihood_ratio_test_unfold; unfold subtract.
    rewrite (broadcast_same _ _ _ H); cbn [bind].
    eexists; split; [reflexivity|]; split.
    + len.
    + intros i Hi; unfold lrt_pvalue; entry.
      now rewrite float_of_int_1, float_of_int_2.
  - reflexivity.
  - intros H0.
    change (likelihood_ratio_test [-100; -50]%float [-105; -50]%float 3 1)
      with (Ok [1 - chi2_cdf 2 10; 1 - chi2_cdf 2 0]%float).
    now rewrite H0.
Qed.

(** ** The Wald test *)

(** C5: on a coefficient vector and a standard-deviation vector of
    equal length, [wald_test] returns one p-value per feature, the
    one-sided upper tail [1 - CDF_Normal(0,1)((theta_mle - theta0) /
    theta_sd)]; [wald_test([1.0], [1.0], theta0=0)] has z-statistic [1.0]
    and returns [[1 - Phi(1.0)]], which is [0.15865525393145707], within
    [0.0001] of [0.1587], for a normal distribution function whose value
    at [1.0] is the binary64 number nearest to [Phi(1)]. *)
Theorem wald_test_formula :
  (forall theta_mle theta_sd theta0,
      length theta_mle = length theta_sd ->
      exists pvals,
        wald_test theta_mle theta_sd theta0 = Ok pvals /\
        length pvals = length theta_mle /\
        forall i, i < length theta_mle ->
          nth i pvals 0%float =
          wald_pvalue theta0 (nth i theta_mle 0%float) (nth i theta_sd 0%float)) /\
  wald_test [1]%float [1]%float theta0_default = Ok [1 - norm_cdf 0 1 1]%float /\
  (norm_cdf 0 1 1 = 0.8413447460685429%float ->
   wald_test [1]%float [1]%float theta0_default = Ok [0.15865525393145707]%float /\
   (0.1586 <? 0.15865525393145707)%float = true /\
   (0.15865525393145707 <? 0.1588)%float = true).
Proof.
  split; [|split].
  - intros theta_mle theta_sd theta0 H.
    unfold wald_test, divide.
    rewrite (proj2 (Nat.eqb_eq _ _) H); cbn [negb].
    rewrite broadcast_same by len; cbn [bind].
    eexists; split; [reflexivity|]; split.
    + len.
    + intros i Hi; unfold wald_pvalue; entry.
      now rewrite float_of_int_1.
  - reflexivity.
  - intros H1.
    change (wald_test [1]%float [1]%float theta0_default)
      with (Ok [1 - norm_cdf 0 1 1]%float).
    rewrite H1. repeat split; vm_compute; reflexivity.
Qed.

(** ** The two-coefficient z-test *)

(** C8: when the four input vectors of [two_coef_z_test] do not all
    have the same length, the function raises a shape-mismatch error
    whose message names a pair of arguments that really differ in
    length; it returns only when all four lengths agree, and then it
    does return, one p-value per feature. *)
Theorem two_coef_z_test_shape_errors (theta_mle0 theta_mle1 theta_sd0 theta_sd1 : vec) :
  let r := two_coef_z_test theta_mle0 theta_mle1 theta_sd0 theta_sd1 in
  let all_equal :=
    length theta_mle0 = length theta_mle1 /\
    length theta_mle0 = length theta_sd0 /\
    length theta_mle0 = length theta_sd1 in
  (~ all_equal ->
   (length theta_mle0 <> length theta_mle1 /\
    r = Raise (ValueError
      "stats.two_coef_z_test(): theta_mle0 and theta_mle1 have to contain the same number of entries")) \/
   (length theta_sd0 <> length theta_sd1 /\
    r = Raise (ValueError
      "stats.two_coef_z_test(): theta_sd0 and theta_sd1 have to contain the same number of entries")) \/
   (length theta_mle0 <> length theta_sd0 /\
    r = Raise (ValueError
      "stats.two_coef_z_test(): theta_mle0 and theta_sd0 have to contain the same number of entries"))) /\
  (forall pvals, r = Ok pvals -> all_equal) /\
  (all_equal -> exists pvals, r = Ok pvals /\ length pvals = length theta_mle0).
Proof.
  scipy_free.
  intros r all_equal; subst r all_equal; unfold two_coef_z_test.
  destruct (Nat.eqb_spec (length theta_mle0) (length theta_mle1)) as [E1|N1]; cbn [negb].
  2:{ split; [|split]; [intros _; left; now split | discriminate | tauto]. }
  destruct (Nat.eqb_spec (length theta_sd0) (length theta_sd1)) as [E2|N2]; cbn [negb].
  2:{ split; [|split]; [intros _; right; left; now split | discriminate |].
      intros (_ & A & B); congruence. }
  destruct (Nat.eqb_spec (length theta_mle0) (length theta_sd0)) as [E3|N3]; cbn [negb].
  2:{ split; [|split]; [intros _; right; right; now split | discriminate | tauto]. }
  unfold subtract, add, divide.
  rewrite broadcast_same by len; cbn [bind].
  rewrite broadcast_same by len; cbn [bind].
  rewrite broadcast_same by len; cbn [bind].
  split; [|split].
  - intros N; exfalso; apply N; repeat split; congruence.
  - intros _ _; repeat split; congruence.
  - intros _; eexists; split; [reflexivity|len].
Qed.

(** ** Welch's t-test from moments *)

(** C3 (code defect): the variance-length check of [t_test_moments]
    raises with the message of the mean-length check: on means of
    length 1 and variances of lengths 1 and 2 the message names [mu] and
    [mu1] and mentions neither [var0] nor [var1]. *)
Theorem t_test_moments_variance_message :
  exists msg,
    t_test_moments [0]%float [0]%float [1]%float [1; 1]%float 2 2 = Raise (ValueError msg) /\
    msg = "stats.t_test_moments(): mu and mu1 have to contain the same number of entries"%string /\
    contains "var0" msg = false /\
    contains "var1" msg = false.
Proof. eexists; repeat split; reflexivity. Qed.

(** Whenever the two variance vectors differ in length (and the two mean
    vectors do not), the error raised is the one worded for the means. *)
Lemma t_test_moments_variance_check (mu0 mu1 var0 var1 : vec) (n0 n1 : Z) :
  length mu0 = length mu1 -> length var0 <> length var1 ->
  t_test_moments mu0 mu1 var0 var1 n0 n1 =
  Raise (ValueError
    "stats.t_test_moments(): mu and mu1 have to contain the same number of entries").
Proof.
  intros H1 H2; unfold t_test_moments.
  now rewrite (proj2 (Nat.eqb_eq _ _) H1), (proj2 (Nat.eqb_neq _ _) H2).
Qed.

(** On four vectors of one common length every broadcast pairs the
    entries up, and the function returns the per-feature Welch tail. *)
Lemma t_test_moments_aligned (mu0 mu1 var0 var1 : vec) (n0 n1 : Z) :
  length mu0 = length mu1 -> length var0 = length var1 -> length mu0 = length var0 ->
  exists pval,
    t_test_moments mu0 mu1 var0 var1 n0 n1 = Ok pval /\
    length pval = length mu0 /\
    forall i, i < length mu0 ->
      nth i pval 0%float =
      welch_pvalue n0 n1 (nth i mu0 0%float) (nth i mu1 0%float)
                   (nth i var0 0%float) (nth i var1 0%float).
Proof.
  intros H1 H2 H3; unfold t_test_moments.
  rewrite (proj2 (Nat.eqb_eq _ _) H1), (proj2 (Nat.eqb_eq _ _) H2); cbn [negb].
  unfold add, subtract, divide.
  repeat (rewrite broadcast_same by len; cbn [bind]).
  eexists; split; [reflexivity|]; split.
  - len.
  - intros i Hi; unfold welch_pvalue, welch_df, welch_t; entry.
    now rewrite float_of_int_1.
Qed.

(** C6 (amended): for mean vectors [mu0], [mu1] and variance vectors
    [var0], [var1] that all four have one common length, and counts
    [n0 > 1], [n1 > 1], [t_test_moments] returns one p-value per feature,
    [1 - CDF_t(df)(t)] with [t = (mu0 - mu1) / sqrt(var0/n0 + var1/n1)]
    and the Welch-Satterthwaite [df] of that same feature. *)
Theorem t_test_moments_formula (mu0 mu1 var0 var1 : vec) (n0 n1 : Z) :
  length mu0 = length mu1 -> length var0 = length var1 ->
  length mu0 = length var0 ->
  (1 < n0)%Z -> (1 < n1)%Z ->
  exists pval,
    t_test_moments mu0 mu1 var0 var1 n0 n1 = Ok pval /\
    length pval = length mu0 /\
    forall i, i < length mu0 ->
      nth i pval 0%float =
      (1 - t_cdf (welch_df n0 n1 (nth i var0 0) (nth i var1 0))
                 (welch_t n0 n1 (nth i mu0 0) (nth i mu1 0)
                          (nth i var0 0) (nth i var1 0)))%float.
Proof.
  intros H1 H2 H3 _ _.
  exact (t_test_moments_aligned mu0 mu1 var0 var1 n0 n1 H1 H2 H3).
Qed.

Ltac blen :=
  unfold broadcast_length in *;
  repeat match goal with
         | H : context [?a =? ?b] |- _ => destruct (Nat.eqb_spec a b)
         | |- context [?a =? ?b] => destruct (Nat.eqb_spec a b)
         end;
  len.

(** C10: [t_test_moments] checks [mu0] against [mu1] and [var0]
    against [var1] only.  When both pairs agree but the means and the
    variances have different lengths, the function does not raise its
    shape-mismatch error; the mismatch reaches the arithmetic, where
    [(mu0 - mu1) / s_delta] either fails to broadcast (neither length is
    1) or stretches the length-1 side, and then the call returns a
    vector of the broadcast length. *)
Theorem t_test_moments_cross_mismatch (mu0 mu1 var0 var1 : vec) (n0 n1 : Z) :
  length mu0 = length mu1 -> length var0 = length var1 ->
  length mu0 <> length var0 ->
  let r := t_test_moments mu0 mu1 var0 var1 n0 n1 in
  r <> Raise (ValueError
         "stats.t_test_moments(): mu and mu1 have to contain the same number of entries") /\
  (length mu0 <> 1 -> length var0 <> 1 ->
   r = Raise (broadcast_error (length mu0) (length var0))) /\
  (length mu0 = 1 \/ length var0 = 1 ->
   exists pval, r = Ok pval /\
                length pval = broadcast_length (length mu0) (length var0)).
Proof.
  intros H1 H2 H3 r; subst r; unfold t_test_moments.
  rewrite (proj2 (Nat.eqb_eq _ _) H1), (proj2 (Nat.eqb_eq _ _) H2); cbn [negb].
  unfold add, subtract, divide.
  rewrite (broadcast_same PrimFloat.add (divide_int var0 n0) (divide_int var1 n1)) by len.
  rewrite (broadcast_same PrimFloat.sub mu0 mu1) by len.
  cbn [bind].
  destruct (broadcast_cases PrimFloat.div (zip_with PrimFloat.sub mu0 mu1)
              (Np.sqrt (zip_with PrimFloat.add (divide_int var0 n0) (divide_int var1 n1))))
    as [(t & -> & Lt & Ct) | (-> & Hne & Ha & Hb)]; cbn [bind].
  - rewrite broadcast_same by len; cbn [bind].
    rewrite broadcast_same by len; cbn [bind].
    match goal with
    | |- context [broadcast t_cdf ?df t] =>
        destruct (broadcast_cases t_cdf df t) as [(c & -> & Lc & _) | (_ & Hne & Ha & Hb)]
    end; cbn [bind].
    + split; [discriminate|]; split.
      * intros Ha Hb; exfalso; blen.
      * intros _; eexists; split; [reflexivity|]. blen.
    + exfalso; blen.
  - assert (Lm : length (zip_with PrimFloat.sub mu0 mu1) = length mu0) by len.
    assert (Lv : length (Np.sqrt (zip_with PrimFloat.add (divide_int var0 n0)
                                     (divide_int var1 n1))) = length var0) by len.
    rewrite Lm, Lv in *.
    split; [|split].
    + intros E; apply Raise_inj in E; revert E; apply broadcast_error_not_stats.
    + reflexivity.
    + intros [E|E]; contradiction.
Qed.

(** ** Facts about the summation model *)

(** Eight entries are summed as a balanced tree. *)
Lemma pairwise_sum_8 (x0 x1 x2 x3 x4 x5 x6 x7 : float) :
  pairwise_sum [x0; x1; x2; x3; x4; x5; x6; x7] =
  (((x0 + x1) + (x2 + x3)) + ((x4 + x5) + (x6 + x7)))%float.
Proof. reflexivity. Qed.

(** Sixteen entries go into the 8 running sums first, and a ninth or
    seventeenth entry is added to the combined result. *)
Lemma pairwise_sum_17 (x0 x1 x2 x3 x4 x5 x6 x7 y0 y1 y2 y3 y4 y5 y6 y7 z : float) :
  pairwise_sum [x0; x1; x2; x3; x4; x5; x6; x7; y0; y1; y2; y3; y4; y5; y6; y7; z] =
  (((((x0 + y0) + (x1 + y1)) + ((x2 + y2) + (x3 + y3))) +
    (((x4 + y4) + (x5 + y5)) + ((x6 + y6) + (x7 + y7)))) + z)%float.
Proof. reflexivity. Qed.

(** Where a block ends: the first part of data longer than 128 entries
    is a positive multiple of 8 and leaves a non-empty second part. *)
Lemma pairwise_split (n : nat) :
  128 < n ->
  let n2 := n / 2 - (n / 2) mod 8 in
  0 < n2 /\ n2 < n /\ n2 mod 8 = 0.
Proof.
  scipy_free.
  intros Hn n2; subst n2.
  pose proof (Nat.div_mod_eq n 2) as Hd.
  pose proof (Nat.mod_upper_bound n 2 ltac:(discriminate)) as Hu.
  pose proof (Nat.div_mod_eq (n / 2) 8) as Hd8.
  pose proof (Nat.mod_upper_bound (n / 2) 8 ltac:(discriminate)) as Hu8.
  repeat split; try lia.
  replace (n / 2 - (n / 2) mod 8) with (n / 2 / 8 * 8) by lia.
  apply Nat.Div0.mod_mul.
Qed.

Lemma pairwise_step (fuel : nat) (a : vec) :
  pairwise (S fuel) a =
  if length a <=? 128 then block_sum a
  else let n2 := length a / 2 - (length a / 2) mod 8 in
       (pairwise fuel (firstn n2 a) + pairwise fuel (skipn n2 a))%float.
Proof. reflexivity. Qed.

Lemma pairwise_block (fuel : nat) (a : vec) :
  length a <= 128 -> pairwise fuel a = block_sum a.
Proof.
  scipy_free.
  intros Hs; destruct fuel; [simpl|rewrite pairwise_step];
    now rewrite (proj2 (Nat.leb_le _ _) Hs).
Qed.

(** The fuel never runs out: any fuel of at least the length of the
    data gives the same sum. *)
Lemma pairwise_fuel (fuel1 fuel2 : nat) (a : vec) :
  length a <= fuel1 -> length a <= fuel2 ->
  pairwise fuel1 a = pairwise fuel2 a.
Proof.
  scipy_free.
  revert fuel2 a; induction fuel1 as [|fuel1 IH]; intros fuel2 a H1 H2.
  - rewrite !pairwise_block by lia; reflexivity.
  - destruct (Nat.leb_spec (length a) 128) as [Hs|Hl].
    + now rewrite !pairwise_block by exact Hs.
    + destruct fuel2 as [|fuel2]; [lia|].
      rewrite !pairwise_step, (proj2 (Nat.leb_gt _ _) Hl); cbv zeta.
      destruct (pairwise_split (length a) Hl) as (Hp & Hlt & _).
      set (n2 := length a / 2 - (length a / 2) mod 8) in *.
      assert (Lf : length (firstn n2 a) = n2) by (rewrite length_firstn; lia).
      assert (Ls : length (skipn n2 a) = length a - n2) by apply length_skipn.
      rewrite (IH fuel2 (firstn n2 a)) by lia.
      rewrite (IH fuel2 (skipn n2 a)) by lia.
      reflexivity.
Qed.

(** Data longer than 128 entries is split in two, each part summed
    pairwise and the two sums added. *)
Lemma pairwise_sum_split (a : vec) :
  128 < length a ->
  let n2 := length a / 2 - (length a / 2) mod 8 in
  pairwise_sum a = (pairwise_sum (firstn n2 a) + pairwise_sum (skipn n2 a))%float.
Proof.
  scipy_free.
  intros Hl n2; unfold pairwise_sum.
  destruct (pairwise_split (length a) Hl) as (Hp & Hlt & _); fold n2 in Hp, Hlt.
  assert (Lf : length (firstn n2 a) = n2) by (rewrite length_firstn; lia).
  assert (Ls : length (skipn n2 a) = length a - n2) by apply length_skipn.
  rewrite (pairwise_fuel (length a) (S (length a)) a) by lia.
  rewrite pairwise_step, (proj2 (Nat.leb_gt _ _) Hl); cbv zeta; fold n2.
  rewrite (pairwise_fuel (length a) (length (firstn n2 a)) (firstn n2 a)) by lia.
  rewrite (pairwise_fuel (length a) (length (skipn n2 a)) (skipn n2 a)) by lia.
  reflexivity.
Qed.

(** Along a strided axis the entries are added one after the other,
    from the first. *)
Lemma add_reduce_strided (x : float) (a : vec) :
  add_reduce false (x :: a) = fold_left PrimFloat.add a x.
Proof.
  scipy_free.
  unfold add_reduce; cbn [fold_left]. f_equal.
  apply Prim2SF_inj; rewrite add_spec.
  change (Prim2SF (-0)%float) with (S754_zero true); unfold SF64add, SFadd.
  destruct (Prim2SF x) as [[|]| | |]; reflexivity.
Qed.

(** ** Welch's t-test from raw observations *)

Lemma var1_population_variance (contiguous : bool) (a : vec) :
  var1 contiguous a = population_variance contiguous a.
Proof.
  unfold var1, population_variance; cbv zeta.
  rewrite map_map, Z.sub_0_r, Z.max_l by lia.
  reflexivity.
Qed.

Lemma var_axis0_matrix (c : nat) (rows : list vec) :
  var_axis0 (Arr2 c rows) = column_variances c rows.
Proof.
  unfold var_axis0, column_variances.
  apply map_ext; intros j; apply var1_population_variance.
Qed.

(** On two matrices the first guard of [t_test_raw] decides alone: the
    reshape is skipped and the second guard repeats the first. *)
Lemma t_test_raw_matrices (c0 c1 : nat) (rows0 rows1 : list vec) :
  t_test_raw (Arr2 c0 rows0) (Arr2 c1 rows1) =
  if c0 =? c1 then
    t_test_moments (column_means c0 rows0) (column_means c1 rows1)
                   (column_variances c0 rows0) (column_variances c1 rows1)
                   (Z.of_nat (length rows0)) (Z.of_nat (length rows1))
  else
    Raise (ValueError
      "stats.t_test_raw(): x0 and x1 have to contain the same number of genes").
Proof.
  unfold t_test_raw, reshape_if_1d; cbn [shape_at shape nth_error bind ndim length Nat.eqb].
  destruct (c0 =? c1) eqn:E; cbn [negb bind fst snd shape_at shape nth_error].
  - rewrite E; cbn [negb]. now rewrite <- !var_axis0_matrix.
  - reflexivity.
Qed.

(** C2 (code defect): [t_test_raw] reads [x0.shape[1]] before the
    reshape of one-dimensional inputs, so on a one-dimensional [x0] it
    raises an index error instead of returning a p-value. *)
Theorem t_test_raw_vector_raises (data : vec) (x1 : ndarray) :
  t_test_raw (Arr1 data) x1 = Raise (IndexError "tuple index out of range").
Proof. reflexivity. Qed.

(** The guard placed after the reshape in [t_test_raw], whose message
    is worded for [wilcoxon], never fires. *)
Lemma t_test_raw_second_guard_unreachable (x0 x1 : ndarray) :
  t_test_raw x0 x1 <>
  Raise (ValueError
    "stats.wilcoxon(): the first axis (number of tests) is not allowed to differ between x0 and x1!").
Proof.
  destruct x0 as [d0|c0 rows0]; [rewrite t_test_raw_vector_raises; discriminate|].
  destruct x1 as [d1|c1 rows1]; [discriminate|].
  rewrite t_test_raw_matrices.
  destruct (Nat.eqb_spec c0 c1) as [E|N]; [|discriminate].
  destruct (t_test_moments_aligned (column_means c0 rows0) (column_means c1 rows1)
              (column_variances c0 rows0) (column_variances c1 rows1)
              (Z.of_nat (length rows0)) (Z.of_nat (length rows1)))
    as (pval & -> & _); [unfold column_means, column_variances; len ..|].
  discriminate.
Qed.

(** C7: on two matrices with the same number of columns, [t_test_raw]
    returns exactly what [t_test_moments] returns on the per-column
    means, the per-column population variances (divisor [n]) and the two
    row counts, and that is a vector with one p-value per column.  The
    means and variances are the [float64] values numpy computes, with
    its order of summation along axis 0. *)
Theorem t_test_raw_delegates (c0 c1 : nat) (rows0 rows1 : list vec) :
  c0 = c1 ->
  t_test_raw (Arr2 c0 rows0) (Arr2 c1 rows1) =
  t_test_moments (column_means c0 rows0) (column_means c1 rows1)
                 (column_variances c0 rows0) (column_variances c1 rows1)
                 (Z.of_nat (length rows0)) (Z.of_nat (length rows1)) /\
  exists pval,
    t_test_raw (Arr2 c0 rows0) (Arr2 c1 rows1) = Ok pval /\ length pval = c0.
Proof.
  intros E; rewrite t_test_raw_matrices, (proj2 (Nat.eqb_eq _ _) E).
  split; [reflexivity|].
  destruct (t_test_moments_aligned (column_means c0 rows0) (column_means c1 rows1)
              (column_variances c0 rows0) (column_variances c1 rows1)
              (Z.of_nat (length rows0)) (Z.of_nat (length rows1)))
    as (pval & Hp & Hl & _); [unfold column_means, column_variances; len ..|].
  exists pval; split; [exact Hp|].
  rewrite Hl; unfold column_means; len.
Qed.

(** ** The Wilcoxon rank-sum test *)

Lemma for_each_map (f : nat -> result float) (g : nat -> float) (range : list nat) :
  (forall i, In i range -> f i = Ok (g i)) ->
  for_each f range = Ok (map g range).
Proof.
  induction range as [|i range IH]; intros H; simpl; [reflexivity|].
  rewrite (H i) by now left.
  rewrite IH by (intros j Hj; apply H; now right).
  reflexivity.
Qed.

Lemma column_of_singletons (data : vec) :
  column (map (fun a => [a]) data) 0 = data.
Proof.
  unfold column; rewrite map_map; simpl.
  apply map_id.
Qed.

Lemma wilcoxon_aligned (x0 x1 : ndarray) :
  ndim x0 = ndim x1 -> feature_count x0 = feature_count x1 ->
  wilcoxon x0 x1 = Ok (map (wilcoxon_pvalue x0 x1) (seq 0 (feature_count x0))).
Proof.
  intros Hd Hc.
  destruct x0 as [d0|c0 rows0], x1 as [d1|c1 rows1]; try discriminate Hd.
  - unfold wilcoxon_pvalue; cbn. now rewrite !column_of_singletons.
  - simpl in Hc; subst c1.
    unfold wilcoxon, reshape_if_1d;
      cbn [ndim shape length Nat.eqb negb bind fst snd shape_at nth_error].
    rewrite Nat.eqb_refl; cbn [negb].
    apply for_each_map; intros i Hi.
    apply in_seq in Hi; simpl in Hi; unfold take_column.
    rewrite (proj2 (Nat.ltb_lt _ _)) by lia.
    reflexivity.
Qed.

(** C9: on observation data of equal dimensionality and, vectors read
    as single columns, equal feature count, [wilcoxon] returns exactly
    one p-value per feature; entry [i] is the two-sided Mann-Whitney U
    p-value of feature [i] of [x0] against feature [i] of [x1], and so is
    the same in every call whose inputs have these two samples as their
    feature [i], whatever the other columns hold. *)
Theorem wilcoxon_per_feature (x0 x1 : ndarray) :
  ndim x0 = ndim x1 -> feature_count x0 = feature_count x1 ->
  exists pvals,
    wilcoxon x0 x1 = Ok pvals /\
    length pvals = feature_count x0 /\
    (forall i, i < feature_count x0 ->
       nth i pvals 0%float =
       pvalue (mannwhitneyu (feature x0 i) (feature x1 i) two_sided)) /\
    (forall y0 y1 i,
       ndim y0 = ndim y1 -> feature_count y0 = feature_count y1 ->
       i < feature_count x0 -> i < feature_count y0 ->
       feature y0 i = feature x0 i -> feature y1 i = feature x1 i ->
       exists qvals, wilcoxon y0 y1 = Ok qvals /\
                     nth i qvals 0%float = nth i pvals 0%float).
Proof.
  intros Hd Hc.
  assert (Hnth : forall z0 z1 i, i < feature_count z0 ->
            nth i (map (wilcoxon_pvalue z0 z1) (seq 0 (feature_count z0))) 0%float =
            wilcoxon_pvalue z0 z1 i).
  { intros z0 z1 i Hi.
    rewrite (nth_map_default _ _ _ 0%float 0) by (rewrite length_seq; exact Hi).
    now rewrite seq_nth. }
  eexists; split; [apply wilcoxon_aligned; assumption|].
  split; [now rewrite length_map, length_seq|].
  split.
  - intros i Hi; now rewrite Hnth.
  - intros y0 y1 i Hyd Hyc Hi Hyi E0 E1.
    eexists; split; [apply wilcoxon_aligned; assumption|].
    rewrite !Hnth by assumption.
    unfold wilcoxon_pvalue; now rewrite E0, E1.
Qed.

(** ** Further properties of the six functions *)

(** *** binary64 facts *)

Lemma float_add_comm (x y : float) : (x + y = y + x)%float.
Proof.
  scipy_free.
  apply Prim2SF_inj; rewrite !add_spec; unfold SF64add, SFadd.
  destruct (Prim2SF x) as [sx|sx| |sx mx ex], (Prim2SF y) as [sy|sy| |sy my ey];
    try reflexivity.
  - destruct sx, sy; reflexivity.
  - destruct sx, sy; reflexivity.
  - now rewrite (Z.min_comm ex ey), Z.add_comm.
Qed.

Lemma float_add_nan_l (x : float) : (nan + x = nan)%float.
Proof. apply Prim2SF_inj; rewrite add_spec; reflexivity. Qed.

Lemma float_add_nan_r (x : float) : (x + nan = nan)%float.
Proof. rewrite float_add_comm; apply float_add_nan_l. Qed.

Lemma float_div_nan_l (x : float) : (nan / x = nan)%float.
Proof. apply Prim2SF_inj; rewrite div_spec; reflexivity. Qed.

Lemma float_div_nan_r (x : float) : (x / nan = nan)%float.
Proof.
  apply Prim2SF_inj; rewrite div_spec.
  change (Prim2SF nan) with S754_nan; unfold SF64div, SFdiv.
  destruct (Prim2SF x); reflexivity.
Qed.

Lemma zip_with_add_comm (a b : vec) :
  zip_with PrimFloat.add a b = zip_with PrimFloat.add b a.
Proof.
  scipy_free.
  revert b; induction a as [|x a IH]; intros [|y b]; simpl; try reflexivity.
  now rewrite IH, float_add_comm.
Qed.

(** *** Broadcasting, entry by entry *)

Lemma item_full (a : vec) (i n : nat) :
  length a = n -> i < n -> item a i = nth i a 0%float.
Proof.
  scipy_free.
  intros Ha Hi; unfold item.
  destruct (Nat.eqb_spec (length a) 1) as [E|N]; [|reflexivity].
  replace i with 0 by lia; reflexivity.
Qed.

Lemma Ok_inj {A : Type} (a b : A) : Ok a = Ok b -> a = b.
Proof. intros E; now injection E. Qed.

Lemma broadcast_nth (f : float -> float -> float) (a b c : vec) (i : nat) :
  broadcast f a b = Ok c -> i < length c ->
  nth i c 0%float = f (item a i) (item b i).
Proof.
  scipy_free.
  unfold broadcast.
  destruct (Nat.eqb_spec (length a) (length b)) as [E|N].
  - intros H Hi; injection H as <-.
    rewrite zip_with_length in Hi by exact E.
    rewrite nth_zip_with by lia.
    now rewrite (item_full a i (length a)), (item_full b i (length a)) by (congruence || lia).
  - destruct a as [|x [|x' a]].
    + destruct b as [|y [|y' b]]; try discriminate.
      intros H Hi; apply Ok_inj in H; subst c; simpl in Hi; lia.
    + intros H Hi; apply Ok_inj in H; subst c. rewrite length_map in Hi.
      rewrite (nth_map_default _ _ _ 0%float 0%float) by exact Hi.
      unfold item; simpl in N |- *.
      destruct (Nat.eqb_spec (length b) 1) as [E1|_]; [congruence|reflexivity].
    + destruct b as [|y [|y' b]]; try discriminate.
      intros H Hi; apply Ok_inj in H; subst c. rewrite length_map in Hi.
      rewrite (nth_map_default _ _ _ 0%float 0%float) by exact Hi.
      reflexivity.
Qed.

(** *** The likelihood-ratio test under broadcasting *)

(** Since its guard is inert, [likelihood_ratio_test] is governed by
    numpy's broadcasting alone.  It raises exactly when the two lengths
    differ and neither is 1, and then with numpy's message; in every
    other case it returns a vector of the broadcast length whose entry
    [i] is the chi-square tail of the deviance of the entries the
    broadcast pairs up, a length-1 operand serving all features. *)
Theorem likelihood_ratio_test_broadcast (ll_full ll_reduced : vec) (df_full df_reduced : Z) :
  ((length ll_full = length ll_reduced \/ length ll_full = 1 \/ length ll_reduced = 1) /\
   exists pvals,
     likelihood_ratio_test ll_full ll_reduced df_full df_reduced = Ok pvals /\
     length pvals = broadcast_length (length ll_full) (length ll_reduced) /\
     forall i, i < length pvals ->
       nth i pvals 0%float =
       lrt_pvalue df_full df_reduced (item ll_full i) (item ll_reduced i)) \/
  (length ll_full <> length ll_reduced /\
   length ll_full <> 1 /\ length ll_reduced <> 1 /\
   likelihood_ratio_test ll_full ll_reduced df_full df_reduced =
   Raise (broadcast_error (length ll_full) (length ll_reduced))).
Proof.
  scipy_free.
  rewrite likelihood_ratio_test_unfold; unfold subtract.
  destruct (broadcast_cases PrimFloat.sub ll_full ll_reduced)
    as [(c & Hc & Hl & Hcompat) | (-> & H)]; cbn [bind].
  - left; split; [exact Hcompat|]. rewrite Hc; cbn [bind].
    eexists; split; [reflexivity|]; split.
    + unfold int_subtract, int_multiply; now rewrite !length_map.
    + intros i Hi.
      assert (Hic : i < length c)
        by (unfold int_subtract, int_multiply in Hi; now rewrite !length_map in Hi).
      unfold lrt_pvalue, int_subtract, int_multiply.
      rewrite !(nth_map_default _ _ _ 0%float 0%float) by (rewrite ?length_map; exact Hic).
      rewrite (broadcast_nth _ _ _ _ _ Hc Hic).
      now rewrite float_of_int_1, float_of_int_2.
  - right; tauto.
Qed.

(** *** The Wald test: outcomes *)

(** [wald_test] has two outcomes only: its own shape-mismatch error,
    exactly when the two lengths differ, or one p-value per entry;
    numpy's broadcasting never gets to decide. *)
Theorem wald_test_outcomes (theta_mle theta_sd : vec) (theta0 : float) :
  (length theta_mle <> length theta_sd /\
   wald_test theta_mle theta_sd theta0 =
   Raise (ValueError
     "stats.wald_test(): theta_mle and theta_sd have to contain the same number of entries")) \/
  (length theta_mle = length theta_sd /\
   exists pvals,
     wald_test theta_mle theta_sd theta0 = Ok pvals /\
     length pvals = length theta_mle).
Proof.
  unfold wald_test.
  destruct (Nat.eqb_spec (length theta_mle) (length theta_sd)) as [E|N]; cbn [negb].
  - right; split; [exact E|].
    unfold divide; rewrite broadcast_same by len; cbn [bind].
    eexists; split; [reflexivity|len].
  - left; now split.
Qed.

(** *** The two-coefficient z-test: formula and symmetry *)

(** On four vectors of one common length [two_coef_z_test] returns one
    p-value per feature, the upper normal tail of
    [(theta_mle0 - theta_mle1) / sqrt(theta_sd0^2 + theta_sd1^2)]. *)
Theorem two_coef_z_test_formula (theta_mle0 theta_mle1 theta_sd0 theta_sd1 : vec) :
  length theta_mle0 = length theta_mle1 ->
  length theta_sd0 = length theta_sd1 ->
  length theta_mle0 = length theta_sd0 ->
  exists pvals,
    two_coef_z_test theta_mle0 theta_mle1 theta_sd0 theta_sd1 = Ok pvals /\
    length pvals = length theta_mle0 /\
    forall i, i < length theta_mle0 ->
      nth i pvals 0%float =
      two_coef_pvalue (nth i theta_mle0 0%float) (nth i theta_mle1 0%float)
                      (nth i theta_sd0 0%float) (nth i theta_sd1 0%float).
Proof.
  intros H1 H2 H3; unfold two_coef_z_test.
  rewrite (proj2 (Nat.eqb_eq _ _) H1), (proj2 (Nat.eqb_eq _ _) H2),
    (proj2 (Nat.eqb_eq _ _) H3); cbn [negb].
  unfold add, subtract, divide.
  repeat (rewrite broadcast_same by len; cbn [bind]).
  eexists; split; [reflexivity|]; split.
  - len.
  - intros i Hi; unfold two_coef_pvalue; entry.
    now rewrite float_of_int_1.
Qed.

(** The two standard-deviation vectors enter [two_coef_z_test]
    symmetrically: exchanging them changes neither the p-values nor the
    error raised. *)
Theorem two_coef_z_test_sd_symmetric (theta_mle0 theta_mle1 theta_sd0 theta_sd1 : vec) :
  two_coef_z_test theta_mle0 theta_mle1 theta_sd1 theta_sd0 =
  two_coef_z_test theta_mle0 theta_mle1 theta_sd0 theta_sd1.
Proof.
  unfold two_coef_z_test.
  destruct (Nat.eqb_spec (length theta_mle0) (length theta_mle1)) as [E1|N1];
    cbn [negb]; [|reflexivity].
  rewrite (Nat.eqb_sym (length theta_sd1) (length theta_sd0)).
  destruct (Nat.eqb_spec (length theta_sd0) (length theta_sd1)) as [E2|N2];
    cbn [negb]; [|reflexivity].
  rewrite <- E2.
  destruct (Nat.eqb_spec (length theta_mle0) (length theta_sd0)) as [E3|N3];
    cbn [negb]; [|reflexivity].
  unfold add.
  rewrite (broadcast_same _ (square theta_sd1) (square theta_sd0)) by len.
  rewrite (broadcast_same _ (square theta_sd0) (square theta_sd1)) by len.
  now rewrite zip_with_add_comm.
Qed.

(** *** Welch's t-test from moments: outcomes, symmetry, NaN *)

(** Past its two checks, [t_test_moments] stands or falls with the
    broadcast of the means against the variances. *)
Lemma t_test_moments_checked (mu0 mu1 var0 var1 : vec) (n0 n1 : Z) :
  length mu0 = length mu1 -> length var0 = length var1 ->
  ((length mu0 = length var0 \/ length mu0 = 1 \/ length var0 = 1) /\
   exists pval,
     t_test_moments mu0 mu1 var0 var1 n0 n1 = Ok pval /\
     length pval = broadcast_length (length mu0) (length var0)) \/
  (length mu0 <> length var0 /\ length mu0 <> 1 /\ length var0 <> 1 /\
   t_test_moments mu0 mu1 var0 var1 n0 n1 =
   Raise (broadcast_error (length mu0) (length var0))).
Proof.
  scipy_free.
  intros H1 H2; unfold t_test_moments.
  rewrite (proj2 (Nat.eqb_eq _ _) H1), (proj2 (Nat.eqb_eq _ _) H2); cbn [negb].
  unfold add, subtract, divide.
  rewrite (broadcast_same PrimFloat.add (divide_int var0 n0) (divide_int var1 n1)) by len.
  rewrite (broadcast_same PrimFloat.sub mu0 mu1) by len.
  cbn [bind].
  assert (Lm : length (zip_with PrimFloat.sub mu0 mu1) = length mu0) by len.
  assert (Lv : length (Np.sqrt (zip_with PrimFloat.add (divide_int var0 n0)
                                   (divide_int var1 n1))) = length var0) by len.
  destruct (broadcast_cases PrimFloat.div (zip_with PrimFloat.sub mu0 mu1)
              (Np.sqrt (zip_with PrimFloat.add (divide_int var0 n0) (divide_int var1 n1))))
    as [(t & -> & Lt & Ct) | (-> & Hne & Ha & Hb)]; cbn [bind].
  - rewrite Lm, Lv in Lt, Ct.
    left; split; [exact Ct|].
    rewrite broadcast_same by len; cbn [bind].
    rewrite broadcast_same by len; cbn [bind].
    match goal with
    | |- context [broadcast t_cdf ?df t] =>
        destruct (broadcast_cases t_cdf df t) as [(c & -> & Lc & _) | (_ & Hne & Ha & Hb)]
    end; cbn [bind].
    + eexists; split; [reflexivity|]. blen.
    + exfalso; blen.
  - rewrite Lm, Lv in *. right; tauto.
Qed.

(** [t_test_moments] raises its own shape-mismatch error exactly when
    the two mean vectors, or the two variance vectors, differ in length.
    When both pairs agree it raises numpy's broadcasting error if the
    means and the variances differ in length and neither length is 1,
    and returns a vector of the broadcast length otherwise. *)
Theorem t_test_moments_outcomes (mu0 mu1 var0 var1 : vec) (n0 n1 : Z) :
  ((length mu0 <> length mu1 \/ length var0 <> length var1) /\
   t_test_moments mu0 mu1 var0 var1 n0 n1 =
   Raise (ValueError
     "stats.t_test_moments(): mu and mu1 have to contain the same number of entries")) \/
  (length mu0 = length mu1 /\ length var0 = length var1 /\
   length mu0 <> length var0 /\ length mu0 <> 1 /\ length var0 <> 1 /\
   t_test_moments mu0 mu1 var0 var1 n0 n1 =
   Raise (broadcast_error (length mu0) (length var0))) \/
  (length mu0 = length mu1 /\ length var0 = length var1 /\
   (length mu0 = length var0 \/ length mu0 = 1 \/ length var0 = 1) /\
   exists pval,
     t_test_moments mu0 mu1 var0 var1 n0 n1 = Ok pval /\
     length pval = broadcast_length (length mu0) (length var0)).
Proof.
  destruct (Nat.eq_dec (length mu0) (length mu1)) as [E1|N1].
  2:{ left; split; [now left|].
      unfold t_test_moments; now rewrite (proj2 (Nat.eqb_neq _ _) N1). }
  destruct (Nat.eq_dec (length var0) (length var1)) as [E2|N2].
  2:{ left; split; [now right|]. now apply t_test_moments_variance_check. }
  right.
  destruct (t_test_moments_checked mu0 mu1 var0 var1 n0 n1 E1 E2)
    as [(Hc & Hp) | (Hne & Ha & Hb & Hr)].
  - right; repeat split; assumption.
  - left; repeat split; assumption.
Qed.

(** The two (variance, count) pairs enter [t_test_moments]
    symmetrically: exchanging [(var0, n0)] with [(var1, n1)] changes
    neither the p-values nor the error raised. *)
Theorem t_test_moments_variance_symmetric (mu0 mu1 var0 var1 : vec) (n0 n1 : Z) :
  t_test_moments mu0 mu1 var1 var0 n1 n0 = t_test_moments mu0 mu1 var0 var1 n0 n1.
Proof.
  unfold t_test_moments.
  destruct (Nat.eqb_spec (length mu0) (length mu1)) as [E1|N1];
    cbn [negb]; [|reflexivity].
  rewrite (Nat.eqb_sym (length var1) (length var0)).
  destruct (Nat.eqb_spec (length var0) (length var1)) as [E2|N2];
    cbn [negb]; [|reflexivity].
  unfold add.
  rewrite (broadcast_same _ (divide_int var1 n1) (divide_int var0 n0)) by len.
  rewrite (broadcast_same _ (divide_int var0 n0) (divide_int var1 n1)) by len.
  rewrite (broadcast_same _ (divide_int (square (divide_int var1 n1)) (n1 - 1))
             (divide_int (square (divide_int var0 n0)) (n0 - 1))) by len.
  rewrite (broadcast_same _ (divide_int (square (divide_int var0 n0)) (n0 - 1))
             (divide_int (square (divide_int var1 n1)) (n1 - 1))) by len.
  rewrite (zip_with_add_comm (divide_int var1 n1)).
  now rewrite (zip_with_add_comm (divide_int (square (divide_int var1 n1)) (n1 - 1))).
Qed.

Lemma welch_pvalue_nan_variance (n0 n1 : Z) (mu0 mu1 var0 var1 : float) :
  var0 = nan \/ var1 = nan ->
  welch_pvalue n0 n1 mu0 mu1 var0 var1 = (1 - t_cdf nan nan)%float.
Proof.
  unfold welch_pvalue, welch_df, welch_t; cbv zeta.
  intros [-> | ->].
  - rewrite !float_div_nan_l, !float_add_nan_l.
    change (PrimFloat.sqrt nan) with nan; change (nan * nan)%float with nan.
    now rewrite ?float_div_nan_l, ?float_add_nan_l, ?float_add_nan_r, !float_div_nan_r.
  - rewrite !float_div_nan_l, !float_add_nan_r.
    change (PrimFloat.sqrt nan) with nan; change (nan * nan)%float with nan.
    now rewrite ?float_div_nan_l, ?float_add_nan_l, ?float_add_nan_r, !float_div_nan_r.
Qed.

(** A NaN variance does not raise: on vectors of one common length, a
    feature whose variance is NaN in either group gets the p-value
    [1 - CDF_t(nan)(nan)], whatever its means and the counts are. *)
Theorem t_test_moments_nan_variance (mu0 mu1 var0 var1 : vec) (n0 n1 : Z) (i : nat) :
  length mu0 = length mu1 -> length var0 = length var1 ->
  length mu0 = length var0 ->
  i < length mu0 ->
  nth i var0 0%float = nan \/ nth i var1 0%float = nan ->
  exists pval,
    t_test_moments mu0 mu1 var0 var1 n0 n1 = Ok pval /\
    nth i pval 0%float = (1 - t_cdf nan nan)%float.
Proof.
  intros H1 H2 H3 Hi Hnan.
  destruct (t_test_moments_aligned mu0 mu1 var0 var1 n0 n1 H1 H2 H3)
    as (pval & Hp & _ & Hn).
  exists pval; split; [exact Hp|].
  rewrite (Hn i Hi). now apply welch_pvalue_nan_variance.
Qed.

(** *** Welch's t-test from raw observations: outcomes, empty groups *)

(** [t_test_raw] returns exactly when both inputs are matrices with the
    same number of columns.  A one-dimensional input, on either side,
    ends in an index error; two matrices with different column counts
    end in the shape-mismatch error of the first guard. *)
Theorem t_test_raw_outcomes (x0 x1 : ndarray) :
  ((ndim x0 = 1 \/ ndim x1 = 1) /\
   t_test_raw x0 x1 = Raise (IndexError "tuple index out of range")) \/
  (ndim x0 = 2 /\ ndim x1 = 2 /\ feature_count x0 <> feature_count x1 /\
   t_test_raw x0 x1 =
   Raise (ValueError
     "stats.t_test_raw(): x0 and x1 have to contain the same number of genes")) \/
  (ndim x0 = 2 /\ ndim x1 = 2 /\ feature_count x0 = feature_count x1 /\
   exists pval, t_test_raw x0 x1 = Ok pval /\ length pval = feature_count x0).
Proof.
  destruct x0 as [d0|c0 rows0]; [left; split; [now left|reflexivity]|].
  destruct x1 as [d1|c1 rows1]; [left; split; [now right|reflexivity]|].
  right; rewrite t_test_raw_matrices; simpl feature_count.
  destruct (Nat.eqb_spec c0 c1) as [E|N].
  - right; repeat split; try assumption.
    destruct (t_test_moments_aligned (column_means c0 rows0) (column_means c1 rows1)
                (column_variances c0 rows0) (column_variances c1 rows1)
                (Z.of_nat (length rows0)) (Z.of_nat (length rows1)))
      as (pval & Hp & Hl & _); [unfold column_means, column_variances; len ..|].
    exists pval; split; [exact Hp|].
    rewrite Hl; unfold column_means; len.
  - left; repeat split; assumption.
Qed.

(** A group without observations does not raise: when either matrix
    has no rows, the means and variances of that group are NaN and
    every feature gets the p-value [1 - CDF_t(nan)(nan)]. *)
Theorem t_test_raw_no_observations (c : nat) (rows0 rows1 : list vec) :
  rows0 = [] \/ rows1 = [] ->
  t_test_raw (Arr2 c rows0) (Arr2 c rows1) = Ok (repeat (1 - t_cdf nan nan)%float c).
Proof.
  intros Hempty; rewrite t_test_raw_matrices, Nat.eqb_refl.
  destruct (t_test_moments_aligned (column_means c rows0) (column_means c rows1)
              (column_variances c rows0) (column_variances c rows1)
              (Z.of_nat (length rows0)) (Z.of_nat (length rows1)))
    as (pval & Hp & Hl & Hn); [unfold column_means, column_variances; len ..|].
  assert (Lc : length (column_means c rows0) = c) by (unfold column_means; len).
  rewrite Lc in Hl, Hn.
  rewrite Hp; f_equal.
  apply (nth_ext _ _ 0%float (1 - t_cdf nan nan)%float);
    [now rewrite repeat_length|].
  intros i Hi; rewrite Hl in Hi.
  rewrite nth_repeat, (Hn i Hi).
  apply welch_pvalue_nan_variance.
  unfold column_variances.
  rewrite !(nth_map_default _ _ _ 0%float 0) by (rewrite length_seq; exact Hi).
  destruct Hempty as [-> | ->]; [left|right]; reflexivity.
Qed.

(** *** The Wilcoxon rank-sum test: outcomes *)

(** [wilcoxon] returns exactly when both inputs have the same number
    of dimensions and, vectors read as single columns, the same feature
    count; it names the dimensionality when that differs and the axis
    when the column counts differ, and it never ends in an index error:
    one-dimensional inputs are served. *)
Theorem wilcoxon_outcomes (x0 x1 : ndarray) :
  (ndim x0 <> ndim x1 /\
   wilcoxon x0 x1 =
   Raise (ValueError
     "stats.wilcoxon(): number of dimensions is not allowed to differ between x0 and x1!")) \/
  (ndim x0 = ndim x1 /\ feature_count x0 <> feature_count x1 /\
   wilcoxon x0 x1 =
   Raise (ValueError
     "stats.wilcoxon(): the first axis (number of tests) is not allowed to differ between x0 and x1!")) \/
  (ndim x0 = ndim x1 /\ feature_count x0 = feature_count x1 /\
   exists pvals, wilcoxon x0 x1 = Ok pvals /\ length pvals = feature_count x0).
Proof.
  destruct (Nat.eq_dec (ndim x0) (ndim x1)) as [Ed|Nd].
  - right.
    destruct (Nat.eq_dec (feature_count x0) (feature_count x1)) as [Ec|Nc].
    + right; repeat split; try assumption.
      rewrite (wilcoxon_aligned x0 x1 Ed Ec).
      eexists; split; [reflexivity|]. now rewrite length_map, length_seq.
    + left; repeat split; try assumption.
      destruct x0 as [d0|c0 rows0], x1 as [d1|c1 rows1]; try discriminate Ed.
      * exfalso; now apply Nc.
      * simpl in Nc.
        unfold wilcoxon, reshape_if_1d;
          cbn [ndim shape length Nat.eqb negb bind fst snd shape_at nth_error].
        now rewrite (proj2 (Nat.eqb_neq _ _) Nc).
  - left; split; [exact Nd|].
    unfold wilcoxon. now rewrite (proj2 (Nat.eqb_neq _ _) Nd).
Qed.

(** Two vectors are tested as the single-column matrices they are
    reshaped to: [wilcoxon] gives the same result on the vectors and on
    the same observations laid out as n x 1 matrices, one p-value, the
    test of the one vector against the other. *)
Theorem wilcoxon_vector_as_column (d0 d1 : vec) :
  wilcoxon (Arr1 d0) (Arr1 d1) =
  wilcoxon (Arr2 1 (map (fun a => [a]) d0)) (Arr2 1 (map (fun a => [a]) d1)) /\
  wilcoxon (Arr1 d0) (Arr1 d1) = Ok [pvalue (mannwhitneyu d0 d1 two_sided)].
Proof.
  rewrite (wilcoxon_aligned (Arr1 d0) (Arr1 d1) eq_refl eq_refl).
  rewrite (wilcoxon_aligned (Arr2 1 (map (fun a => [a]) d0))
             (Arr2 1 (map (fun a => [a]) d1)) eq_refl eq_refl).
  unfold wilcoxon_pvalue; simpl.
  now rewrite !column_of_singletons.
Qed.

End WithScipy.

(** ** The theorems at concrete inputs *)

Lemma likelihood_ratio_test_formula_witness :
  exists pvals,
    likelihood_ratio_test table_chi2_cdf [-100; -50]%float [-105; -50]%float 3 1 = Ok pvals /\
    length pvals = 2 /\
    nth 1 pvals 0%float = lrt_pvalue table_chi2_cdf 3 1 (-50) (-50) /\
    pvals = [1 - table_chi2_cdf 2 10; 1]%float.
Proof.
  destruct (likelihood_ratio_test_formula table_chi2_cdf) as (Hall & _ & Hone).
  destruct (Hall [-100; -50]%float [-105; -50]%float 3%Z 1%Z eq_refl)
    as (pvals & Hp & Hl & Hn).
  exists pvals; split; [exact Hp|]; split; [exact Hl|]; split.
  - apply (Hn 1); simpl; lia.
  - rewrite (Hone eq_refl) in Hp. now injection Hp.
Defined.

Lemma wald_test_formula_witness :
  exists pvals,
    wald_test table_norm_cdf [1; 3]%float [1; 2]%float theta0_default = Ok pvals /\
    length pvals = 2 /\
    nth 1 pvals 0%float = wald_pvalue table_norm_cdf 0 3 2 /\
    wald_test table_norm_cdf [1]%float [1]%float theta0_default =
    Ok [0.15865525393145707]%float.
Proof.
  destruct (wald_test_formula table_norm_cdf) as (Hall & _ & Hone).
  destruct (Hall [1; 3]%float [1; 2]%float theta0_default eq_refl)
    as (pvals & Hp & Hl & Hn).
  exists pvals; split; [exact Hp|]; split; [exact Hl|]; split.
  - apply (Hn 1); simpl; lia.
  - apply (Hone eq_refl).
Defined.

Lemma t_test_moments_formula_witness :
  exists pval,
    t_test_moments table_t_cdf [0; 1]%float [1; 1]%float [1; 2]%float [1; 1]%float 3 3
    = Ok pval /\
    length pval = 2 /\
    nth 0 pval 0%float =
    (1 - table_t_cdf (welch_df 3 3 1 1) (welch_t 3 3 0 1 1 1))%float.
Proof.
  destruct (t_test_moments_formula table_t_cdf
              [0; 1]%float [1; 1]%float [1; 2]%float [1; 1]%float 3 3
              eq_refl eq_refl eq_refl eq_refl eq_refl)
    as (pval & Hp & Hl & Hn).
  exists pval; split; [exact Hp|]; split; [exact Hl|].
  apply (Hn 0); simpl; lia.
Defined.

(** The formula of [t_test_moments] needs the means and the variances
    to share their length: with two means and three variances per group
    the two checks pass and the call raises in the arithmetic. *)
Lemma t_test_moments_formula_needs_common_length :
  length [0; 0]%float = length [0; 0]%float /\
  length [1; 1; 1]%float = length [1; 1; 1]%float /\
  (1 < 2)%Z /\
  t_test_moments table_t_cdf [0; 0]%float [0; 0]%float [1; 1; 1]%float [1; 1; 1]%float 2 2
  = Raise (broadcast_error 2 3) /\
  ~ (exists pval,
        t_test_moments table_t_cdf [0; 0]%float [0; 0]%float
                       [1; 1; 1]%float [1; 1; 1]%float 2 2 = Ok pval).
Proof.
  repeat split.
  intros (pval & H); discriminate H.
Qed.

Lemma t_test_moments_cross_mismatch_witness :
  t_test_moments table_t_cdf [0; 0]%float [0; 0]%float [1; 1; 1]%float [1; 1; 1]%float 2 2
  = Raise (broadcast_error 2 3) /\
  exists pval,
    t_test_moments table_t_cdf [0]%float [0]%float [1; 1; 1]%float [1; 1; 1]%float 2 2
    = Ok pval /\ length pval = 3.
Proof.
  split.
  - apply (t_test_moments_cross_mismatch table_t_cdf
             [0; 0]%float [0; 0]%float [1; 1; 1]%float [1; 1; 1]%float 2 2
             eq_refl eq_refl);
      simpl; intros H; discriminate H.
  - apply (t_test_moments_cross_mismatch table_t_cdf
             [0]%float [0]%float [1; 1; 1]%float [1; 1; 1]%float 2 2
             eq_refl eq_refl); [simpl; intros H; discriminate H|].
    left; reflexivity.
Defined.

Lemma t_test_raw_delegates_witness :
  (exists pval,
      t_test_raw table_t_cdf (Arr2 2 [[1; 2]; [3; 4]; [5; 6]]%float)
                 (Arr2 2 [[2; 3]; [4; 5]; [6; 7]]%float) = Ok pval /\
      length pval = 2 /\
      column_variances 2 [[1; 2]; [3; 4]; [5; 6]]%float
      = [2.6666666666666665; 2.6666666666666665]%float /\
      t_test_moments table_t_cdf
        (column_means 2 [[1; 2]; [3; 4]; [5; 6]]%float)
        (column_means 2 [[2; 3]; [4; 5]; [6; 7]]%float)
        (column_variances 2 [[1; 2]; [3; 4]; [5; 6]]%float)
        (column_variances 2 [[2; 3]; [4; 5]; [6; 7]]%float) 3 3 = Ok pval) /\
  (let rows0 := [[0.5]; [1.0]; [0.3]; [0.8]; [0.7]; [0.1]; [0.3]; [0.5]]%float in
   let rows1 := [[0.6]; [1.2]; [0.7]; [0.2]; [1.0]; [0.1]; [0.3]; [0.1]]%float in
   column_means 1 rows0 = [0.525]%float /\
   column_means 1 rows1 = [0.5249999999999999]%float /\
   column_variances 1 rows0 = [0.07687500000000001]%float /\
   column_variances 1 rows1 = [0.15437499999999998]%float /\
   t_test_raw table_t_cdf (Arr2 1 rows0) (Arr2 1 rows1) =
   t_test_moments table_t_cdf [0.525]%float [0.5249999999999999]%float
                  [0.07687500000000001]%float [0.15437499999999998]%float 8 8).
Proof.
  split.
  - destruct (t_test_raw_delegates table_t_cdf 2 2
                [[1; 2]; [3; 4]; [5; 6]]%float [[2; 3]; [4; 5]; [6; 7]]%float eq_refl)
      as (Heq & pval & Hp & Hl).
    exists pval; split; [exact Hp|]; split; [exact Hl|]; split; [reflexivity|].
    rewrite <- Hp; symmetry; exact Heq.
  - intros rows0 rows1.
    repeat (split; [reflexivity|]).
    exact (proj1 (t_test_raw_delegates table_t_cdf 1 1 rows0 rows1 eq_refl)).
Defined.

(** With two columns the same observations are added row after row:
    the column that sums to [0.525] pairwise as a single column now
    gives [0.5249999999999999], and the other way round. *)
Lemma column_means_two_columns :
  column_means 2 [[0.5; 0.6]; [1.0; 1.2]; [0.3; 0.7]; [0.8; 0.2];
                  [0.7; 1.0]; [0.1; 0.1]; [0.3; 0.3]; [0.5; 0.1]]%float
  = [0.5249999999999999; 0.525]%float.
Proof. reflexivity. Qed.

Lemma two_coef_z_test_shape_errors_witness :
  two_coef_z_test table_norm_cdf [1; 2]%float [1; 2]%float [1; 2]%float [1; 2; 3]%float
  = Raise (ValueError
      "stats.two_coef_z_test(): theta_sd0 and theta_sd1 have to contain the same number of entries") /\
  exists pvals,
    two_coef_z_test table_norm_cdf [1; 2]%float [1; 0]%float [3; 4]%float [4; 3]%float
    = Ok pvals /\ length pvals = 2.
Proof.
  split.
  - destruct (two_coef_z_test_shape_errors table_norm_cdf
                [1; 2]%float [1; 2]%float [1; 2]%float [1; 2; 3]%float) as (Hraise & _ & _).
    destruct Hraise as [(N & _) | [(_ & H) | (N & _)]].
    + simpl; intros (_ & _ & H); discriminate H.
    + exfalso; apply N; reflexivity.
    + exact H.
    + exfalso; apply N; reflexivity.
  - apply (two_coef_z_test_shape_errors table_norm_cdf
             [1; 2]%float [1; 0]%float [3; 4]%float [4; 3]%float).
    repeat split.
Defined.

Lemma wilcoxon_per_feature_witness :
  exists pvals,
    wilcoxon table_mannwhitneyu (Arr2 2 [[1; 2]; [3; 4]; [5; 6]]%float)
             (Arr2 2 [[2; 2]; [4; 7]]%float) = Ok pvals /\
    length pvals = 2 /\
    nth 1 pvals 0%float =
    pvalue (table_mannwhitneyu [2; 4; 6]%float [2; 7]%float two_sided).
Proof.
  destruct (wilcoxon_per_feature table_mannwhitneyu
              (Arr2 2 [[1; 2]; [3; 4]; [5; 6]]%float) (Arr2 2 [[2; 2]; [4; 7]]%float)
              eq_refl eq_refl)
    as (pvals & Hp & Hl & Hn & _).
  exists pvals; split; [exact Hp|]; split; [exact Hl|].
  apply (Hn 1); simpl; lia.
Defined.

Lemma likelihood_ratio_test_broadcast_witness :
  exists pvals,
    likelihood_ratio_test table_chi2_cdf [-100]%float [-105; -50; -100]%float 3 1 = Ok pvals /\
    length pvals = 3 /\
    nth 2 pvals 0%float = lrt_pvalue table_chi2_cdf 3 1 (-100) (-100).
Proof.
  destruct (likelihood_ratio_test_broadcast table_chi2_cdf
              [-100]%float [-105; -50; -100]%float 3 1)
    as [(_ & pvals & Hp & Hl & Hn) | (_ & N & _)]; [|exfalso; simpl in N; lia].
  exists pvals; split; [exact Hp|]; split; [exact Hl|].
  apply (Hn 2); rewrite Hl; unfold broadcast_length; simpl; lia.
Defined.

Lemma two_coef_z_test_formula_witness :
  exists pvals,
    two_coef_z_test table_norm_cdf [1; 2]%float [1; 0]%float [3; 4]%float [4; 3]%float
    = Ok pvals /\
    length pvals = 2 /\
    nth 1 pvals 0%float = two_coef_pvalue table_norm_cdf 2 0 4 3.
Proof.
  destruct (two_coef_z_test_formula table_norm_cdf
              [1; 2]%float [1; 0]%float [3; 4]%float [4; 3]%float
              eq_refl eq_refl eq_refl)
    as (pvals & Hp & Hl & Hn).
  exists pvals; split; [exact Hp|]; split; [exact Hl|].
  apply (Hn 1); simpl; lia.
Defined.

Lemma t_test_moments_nan_variance_witness :
  exists pval,
    t_test_moments table_t_cdf [0; 1]%float [1; 1]%float [nan; 2]%float [1; 1]%float 3 3
    = Ok pval /\
    nth 0 pval 0%float = (1 - table_t_cdf nan nan)%float.
Proof.
  apply (t_test_moments_nan_variance table_t_cdf
           [0; 1]%float [1; 1]%float [nan; 2]%float [1; 1]%float 3 3 0
           eq_refl eq_refl eq_refl).
  - simpl; lia.
  - left; reflexivity.
Defined.

Lemma t_test_raw_no_observations_witness :
  t_test_raw table_t_cdf (Arr2 2 []) (Arr2 2 [[2; 3]; [4; 5]]%float)
  = Ok [1 - table_t_cdf nan nan; 1 - table_t_cdf nan nan]%float.
Proof.
  apply (t_test_raw_no_observations table_t_cdf 2 [] [[2; 3]; [4; 5]]%float).
  left; reflexivity.
Defined.

End Stats.
